(** * Book Connect (scripts.js): filtering, pagination, theme and click routing

    A shallow embedding of [src/scripts.js].  Module-level [let] variables
    ([page], [matches]) and the parts of the document the script reads or
    writes become fields of explicit state records; every function of the
    script becomes a function on those records.

    Conventions of the model.
    - A JavaScript string is a [string]; each [ascii] stands for one UTF-16
      code unit in the range 0..255 (Basic Latin and Latin-1 Supplement), on
      which [toLowerCase] acts unit by unit.
    - A JavaScript integer is a [Z] (the script only counts pages and list
      positions, far below 2^53).
    - An array is a [list]; an object used as a record is a [Record].
    - Every mount point the script looks up with [querySelector] exists
      (the markup is part of the deployment, not of the script). *)

From Stdlib Require Import ZArith Ascii String DecimalString.
From stdpp Require Import base list strings gmap.

Open Scope string_scope.
Open Scope list_scope.

(** ** JavaScript built-ins used by the script *)

Module JS.

(** White space and line terminators of ECMAScript among the code units
    0..255: TAB, LF, VT, FF, CR, SP and NBSP. *)
Definition isWhiteSpace (c : ascii) : bool :=
  let n := N_of_ascii c in
  ((9 <=? n) && (n <=? 13) || (n =? 32) || (n =? 160))%N.

Fixpoint trimStart (s : string) : string :=
  match s with
  | EmptyString => EmptyString
  | String c s' => if isWhiteSpace c then trimStart s' else s
  end.

Fixpoint trimEnd (s : string) : string :=
  match s with
  | EmptyString => EmptyString
  | String c s' =>
      match trimEnd s' with
      | EmptyString => if isWhiteSpace c then EmptyString
                       else String c EmptyString
      | r => String c r
      end
  end.

(** [String.prototype.trim] *)
Definition trim (s : string) : string := trimEnd (trimStart s).

(** Lower-case mapping of one code unit: A-Z, and the upper-case letters
    of Latin-1 (U+00C0..U+00DE without the multiplication sign U+00D7). *)
Definition lowerUnit (c : ascii) : ascii :=
  let n := N_of_ascii c in
  if ((65 <=? n) && (n <=? 90)
      || (192 <=? n) && (n <=? 222) && negb (n =? 215))%N
  then ascii_of_N (n + 32) else c.

(** [String.prototype.toLowerCase] *)
Fixpoint toLowerCase (s : string) : string :=
  match s with
  | EmptyString => EmptyString
  | String c s' => String (lowerUnit c) (toLowerCase s')
  end.

(** [s.startsWith(p)] *)
Fixpoint startsWith (s p : string) {struct p} : bool :=
  match p, s with
  | EmptyString, _ => true
  | String _ _, EmptyString => false
  | String a p', String b s' => Ascii.eqb a b && startsWith s' p'
  end.

(** [String.prototype.includes]: does [needle] occur in [s] at some
    position? *)
Fixpoint includes (s needle : string) : bool :=
  startsWith s needle
  || match s with
     | EmptyString => false
     | String _ s' => includes s' needle
     end.

(** Resolution of a relative index of [Array.prototype.slice] against the
    length of the array. *)
Definition relativeIndex (len i : Z) : Z :=
  if (i <? 0)%Z then Z.max (len + i) 0 else Z.min i len.

(** [Array.prototype.slice(start, end)] on integer arguments. *)
Definition slice {A} (start end_ : Z) (l : list A) : list A :=
  let len := Z.of_nat (length l) in
  let k := relativeIndex len start in
  let final := relativeIndex len end_ in
  take (Z.to_nat (final - k)) (drop (Z.to_nat k) l).

(** [Math.max] on integers. *)
Definition Math_max (a b : Z) : Z := Z.max a b.

(** Conversion of an integer to a string, as in a template literal. *)
Definition toString (n : Z) : string := NilZero.string_of_int (Z.to_int n).

(** The primitive values the script stores or compares. *)
Inductive value : Type :=
| undefined
| str (s : string)
| bool_ (b : bool)
| num (n : Z).

(** Strict equality [===] on primitive values. *)
Definition strictEq (a b : value) : bool :=
  match a, b with
  | undefined, undefined => true
  | str x, str y => String.eqb x y
  | bool_ x, bool_ y => Bool.eqb x y
  | num x, num y => (x =? y)%Z
  | _, _ => false
  end.

(** Truthiness, as tested by [if (v)]. *)
Definition truthy (v : value) : bool :=
  match v with
  | undefined => false
  | str s => negb (String.eqb s "")
  | bool_ b => b
  | num n => negb (n =? 0)%Z
  end.

(** Conversion to a string, as in a template literal. *)
Definition valueToString (v : value) : string :=
  match v with
  | undefined => "undefined"
  | str s => s
  | bool_ b => if b then "true" else "false"
  | num n => toString n
  end.

(** Outcome of running code that may throw. *)
Inductive result (A : Type) : Type :=
| Ok (a : A)
| Throw (msg : string).
Arguments Ok {A} a.
Arguments Throw {A} msg.

Definition bind {A B} (r : result A) (k : A -> result B) : result B :=
  match r with
  | Ok a => k a
  | Throw m => Throw m
  end.

End JS.

#[global] Instance result_ret : MRet JS.result := @JS.Ok.
#[global] Instance result_bind : MBind JS.result :=
  fun A B k r => JS.bind r k.

(** ** data.js: the shape of the catalog *)

Module Book.
Record t : Type := mk {
  id : string;
  title : string;
  author : string;
  image : string;
  description : string;
  published : string;
  genres : list string
}.
End Book.

Coercion JS.str : string >-> JS.value.

(** The object built from the search form: one string per form control. *)
Module Filters.
Record t : Type := mk {
  title : string;
  author : string;
  genre : string
}.
End Filters.

(** The object literal handed to [createBookElement]. *)
Module Preview.
Record t : Type := mk {
  author : string;
  id : string;
  image : string;
  title : string
}.
End Preview.

(** ** The host environment *)

(** The document as the script sees it: properties of the elements it
    reaches through a selector, keyed by selector and property name, and
    the child lists of the mount points it fills. *)
Module Document.
Section WithNode.
Context {Node : Type}.

Record t : Type := mk {
  props : gmap (string * string) JS.value;
  children : gmap string (list Node)
}.

(** [document.querySelector(sel).prop = v] *)
Definition setProp (sel prop : string) (v : JS.value) (d : t) : t :=
  {| props := <[(sel, prop) := v]> (props d); children := children d |}.

(** [document.querySelector(sel).prop] *)
Definition getProp (sel prop : string) (d : t) : JS.value :=
  default JS.undefined (props d !! (sel, prop)).

Definition childrenOf (sel : string) (d : t) : list Node :=
  default [] (children d !! sel).

(** [document.querySelector(sel).appendChild(fragment)]: the children of
    the fragment move to the end of the element's child list. *)
Definition appendChild (sel : string) (fragment : list Node) (d : t) : t :=
  {| props := props d;
     children := <[sel := (childrenOf sel d ++ fragment)%list]> (children d) |}.

(** [document.querySelector(sel).innerHTML = ""] *)
Definition clearChildren (sel : string) (d : t) : t :=
  {| props := props d; children := <[sel := []]> (children d) |}.
End WithNode.
Arguments t : clear implicits.
End Document.

(** [window.matchMedia] may be missing; when present it answers a media
    query with an object whose [matches] field is a boolean. *)
Module Window.
Record MediaQueryList : Type := mkMql { matches : bool }.
Record t : Type := mk {
  matchMedia : option (string -> MediaQueryList)
}.

(** The call [window.matchMedia(q)]: a [TypeError] when the property is
    not a function. *)
Definition callMatchMedia (w : t) (q : string) : JS.result MediaQueryList :=
  match matchMedia w with
  | Some f => JS.Ok (f q)
  | None => JS.Throw "TypeError: window.matchMedia is not a function"
  end.
End Window.

(** What the click handler reads from an event: the legacy [path] property
    (absent in most hosts) and the result of [composedPath()].  An entry of
    the path is [null]/[undefined] ([None]) or an event target; a target
    has a [dataset] only when it is an element (the document and the window
    have none); [preview] is [undefined] without a [data-preview]
    attribute. *)
Module Click.
Record Dataset : Type := mkDataset { preview : JS.value }.
Record Target : Type := mkTarget { dataset : option Dataset }.
Record t : Type := mk {
  path : option (list (option Target));
  composedPath : list (option Target)
}.

(** [event.path || event.composedPath()]: an array is truthy even when
    it is empty. *)
Definition eventPath (event : t) : list (option Target) :=
  match path event with
  | Some p => p
  | None => composedPath event
  end.

(** [node?.dataset?.preview] *)
Definition optPreview (node : option Target) : JS.value :=
  match node with
  | None => JS.undefined
  | Some tg =>
      match dataset tg with
      | None => JS.undefined
      | Some ds => preview ds
      end
  end.

(** [node.dataset.preview]: reading a property of [null] or [undefined]
    throws. *)
Definition getPreview (node : option Target) : JS.result JS.value :=
  match node with
  | None => JS.Throw "TypeError: cannot read properties of undefined (reading 'dataset')"
  | Some tg =>
      match dataset tg with
      | None => JS.Throw "TypeError: cannot read properties of undefined (reading 'preview')"
      | Some ds => JS.Ok (preview ds)
      end
  end.
End Click.

(** The module-level variables of the script together with the document. *)
Module State.
Record t (Node : Type) : Type := mk {
  page : Z;
  matches : list Book.t;
  doc : Document.t Node
}.
Arguments mk {Node} _ _ _.
Arguments page {Node} _.
Arguments matches {Node} _.
Arguments doc {Node} _.
End State.

(** The triggers wired up by [setupEventListeners]. *)
Inductive Event : Type :=
| SearchCancelClick
| SettingsCancelClick
| HeaderSearchClick
| HeaderSettingsClick
| ListCloseClick
| SettingsFormSubmit (theme : JS.value)
| SearchFormSubmit (filters : Filters.t)
| ShowMoreClick
| ListItemsClick (event : Click.t).

(** The pair of colour strings built by [setThemeColors]. *)
Module Colors.
Record t : Type := mk { darkColor : string; lightColor : string }.
End Colors.

(** ** scripts.js *)

Section Script.

Context {Node : Type}.

(** helper.js *)
Variable createBookElement : Preview.t -> Node.
Variable createOptionElement : list (string * string) -> string -> list Node.

(** data.js *)
Variable books : list Book.t.
Variable authors genres : list (string * string).
Variable BOOKS_PER_PAGE : Z.

(** [new Date(s).getFullYear()], which depends on the host's time zone. *)
Variable getFullYear : string -> Z.

Abbreviation Doc := (Document.t Node).
Abbreviation St := (State.t Node).

(** [let page = 1; let matches = books;] *)
Definition initialState (markup : Doc) : St := State.mk 1 books markup.

Definition withDoc (f : Doc -> Doc) (st : St) : St :=
  State.mk (State.page st) (State.matches st) (f (State.doc st)).

(** [elements.forEach(...)] moves the elements into the fragment, which
    is then appended to the mount point. *)
Definition appendElements (fragment : list Node) (selector : string)
    (elements : list Node) (d : Doc) : Doc :=
  Document.appendChild selector (fragment ++ elements)%list d.

(** The arrow function [({ author, id, image, title }) =>
    createBookElement({ author, id, image, title })]. *)
Definition toBookElement (b : Book.t) : Node :=
  createBookElement
    (Preview.mk (Book.author b) (Book.id b) (Book.image b) (Book.title b)).

Definition createBookList (st : St) : St :=
  let starting : list Node := [] in
  let initialBooks :=
    toBookElement <$> JS.slice 0 BOOKS_PER_PAGE (State.matches st) in
  withDoc (appendElements starting "[data-list-items]" initialBooks) st.

Definition createOptionLists (d : Doc) : Doc :=
  let genreHtml := createOptionElement genres "All Genres" in
  let authorHtml := createOptionElement authors "All Authors" in
  let d := appendElements genreHtml "[data-search-genres]" [] d in
  appendElements authorHtml "[data-search-authors]" [] d.

(** The object literal [colors] of [setThemeColors]. *)
Definition themeColors (theme : JS.value) : Colors.t :=
  {| Colors.darkColor :=
       if JS.strictEq theme "night" then "255, 255, 255" else "10, 10, 20";
     Colors.lightColor :=
       if JS.strictEq theme "night" then "10, 10, 20" else "255, 255, 255" |}.

Definition setThemeColors (theme : JS.value) (d : Doc) : Doc :=
  let colors := themeColors theme in
  let d := Document.setProp "[data-settings-theme]" "value" theme d in
  let d := Document.setProp "documentElement.style" "--color-dark"
             (Colors.darkColor colors) d in
  Document.setProp "documentElement.style" "--color-light"
    (Colors.lightColor colors) d.

(** [window.matchMedia && window.matchMedia(q).matches ? "night" : "day"]:
    the call is evaluated only when the left operand is truthy. *)
Definition checkAndSetTheme (w : Window.t) (d : Doc) : JS.result Doc :=
  prefersDark ←
    match Window.matchMedia w return JS.result bool with
    | None => mret false
    | Some _ =>
        mql ← Window.callMatchMedia w "(prefers-color-scheme: dark)";
        mret (Window.matches mql)
    end;
  let theme : string := if (prefersDark : bool) then "night" else "day" in
  mret (setThemeColors theme d).

Definition remainingBooks : Z :=
  JS.Math_max (Z.of_nat (length books) - BOOKS_PER_PAGE) 0.

Definition updateShowMoreButton (d : Doc) : Doc :=
  Document.setProp "[data-list-button]" "innerText"
    (JS.str ("Show more (" +:+ JS.toString remainingBooks +:+ ")")) d.

Definition initialize (w : Window.t) (st : St) : JS.result St :=
  let st := createBookList st in
  let st := withDoc createOptionLists st in
  d ← checkAndSetTheme w (State.doc st);
  mret (State.mk (State.page st) (State.matches st) (updateShowMoreButton d)).

(** *** applyFilters *)

(** The [for ... of] loop over [book.genres], with [genreMatch] as the
    loop-carried variable and [break] as an early exit. *)
Fixpoint genreLoop (filters : Filters.t) (genreMatch : bool)
    (bookGenres : list string) : bool :=
  match bookGenres with
  | [] => genreMatch
  | singleGenre :: rest =>
      if genreMatch then genreMatch
      else genreLoop filters
             (if JS.strictEq singleGenre (Filters.genre filters) then true
              else genreMatch)
             rest
  end.

Definition genreMatch (filters : Filters.t) (book : Book.t) : bool :=
  genreLoop filters (JS.strictEq (Filters.genre filters) "any")
    (Book.genres book).

(** First conjunct of the returned expression. *)
Definition titleMatch (filters : Filters.t) (book : Book.t) : bool :=
  JS.strictEq (JS.trim (Filters.title filters)) ""
  || JS.includes (JS.toLowerCase (Book.title book))
                 (JS.toLowerCase (Filters.title filters)).

(** Second conjunct of the returned expression. *)
Definition authorMatch (filters : Filters.t) (book : Book.t) : bool :=
  JS.strictEq (Filters.author filters) "any"
  || JS.strictEq (Book.author book) (Filters.author filters).

(** The callback handed to [books.filter]. *)
Definition filterCallback (filters : Filters.t) (book : Book.t) : bool :=
  let gm := genreMatch filters book in
  titleMatch filters book && authorMatch filters book && gm.

Definition applyFilters (filters : Filters.t) : list Book.t :=
  List.filter (filterCallback filters) books.

(** *** Event handlers *)

Definition updateBookList (result : list Book.t) (st : St) : St :=
  let st := State.mk 1 result (State.doc st) in
  let st := withDoc (Document.setProp "[data-list-message]"
                       "classList.list__message_show"
                       (JS.bool_ (Z.of_nat (length result) <? 1)%Z)) st in
  let st := withDoc (Document.clearChildren "[data-list-items]") st in
  let st := createBookList st in
  let st := withDoc updateShowMoreButton st in
  let st := withDoc (Document.setProp "window" "scrollTo.top" (JS.num 0)) st in
  withDoc (Document.setProp "[data-search-overlay]" "open" (JS.bool_ false)) st.

Definition handleSettingsFormSubmit (theme : JS.value) (st : St) : St :=
  let st := withDoc (setThemeColors theme) st in
  withDoc (Document.setProp "[data-settings-overlay]" "open" (JS.bool_ false)) st.

Definition handleSearchFormSubmit (filters : Filters.t) (st : St) : St :=
  let result := applyFilters filters in
  updateBookList result st.

Definition handleShowMoreButtonClick (st : St) : St :=
  let fragment : list Node := [] in
  let start := (State.page st * BOOKS_PER_PAGE)%Z in
  let end_ := ((State.page st + 1) * BOOKS_PER_PAGE)%Z in
  let additionalBooks :=
    toBookElement <$> JS.slice start end_ (State.matches st) in
  let st := withDoc (appendElements fragment "[data-list-items]" additionalBooks) st in
  State.mk (State.page st + 1) (State.matches st) (State.doc st).

Definition findActiveBook (id : JS.value) : option Book.t :=
  List.find (fun book => JS.strictEq (Book.id book) id) books.

(** [authors[key]] *)
Definition authorName (key : string) : JS.value :=
  match List.find (fun kv => String.eqb (fst kv) key) authors with
  | Some kv => JS.str (snd kv)
  | None => JS.undefined
  end.

Definition showActiveBook (active : Book.t) (d : Doc) : Doc :=
  let d := Document.setProp "[data-list-active]" "open" (JS.bool_ true) d in
  let d := Document.setProp "[data-list-blur]" "src" (Book.image active) d in
  let d := Document.setProp "[data-list-image]" "src" (Book.image active) d in
  let d := Document.setProp "[data-list-title]" "innerText" (Book.title active) d in
  let d := Document.setProp "[data-list-subtitle]" "innerText"
             (JS.str (JS.valueToString (authorName (Book.author active))
                      +:+ " (" +:+ JS.toString (getFullYear (Book.published active))
                      +:+ ")")) d in
  Document.setProp "[data-list-description]" "innerText"
    (Book.description active) d.

(** The [for ... of] loop over the event path, with [active] as the
    loop-carried variable.  The test uses optional chaining; the argument
    of [findActiveBook] is read with plain property accesses. *)
Fixpoint pathLoop (active : option Book.t)
    (pathArray : list (option Click.Target)) : JS.result (option Book.t) :=
  match pathArray with
  | [] => mret active
  | node :: rest =>
      match active with
      | Some _ => mret active
      | None =>
          if JS.truthy (Click.optPreview node)
          then id ← Click.getPreview node;
               pathLoop (findActiveBook id) rest
          else pathLoop active rest
      end
  end.

Definition handleListItemClick (event : Click.t) (st : St) : JS.result St :=
  let pathArray := Click.eventPath event in
  active ← pathLoop None pathArray;
  match active with
  | Some book => mret (withDoc (showActiveBook book) st)
  | None => mret st
  end.

(** [setupEventListeners]: which handler runs for which trigger. *)
Definition handle (e : Event) (st : St) : JS.result St :=
  match e with
  | SearchCancelClick =>
      mret (withDoc (Document.setProp "[data-search-overlay]" "open" (JS.bool_ false)) st)
  | SettingsCancelClick =>
      mret (withDoc (Document.setProp "[data-settings-overlay]" "open" (JS.bool_ false)) st)
  | HeaderSearchClick =>
      let st := withDoc (Document.setProp "[data-search-overlay]" "open" (JS.bool_ true)) st in
      mret (withDoc (Document.setProp "[data-search-title]" "focused" (JS.bool_ true)) st)
  | HeaderSettingsClick =>
      mret (withDoc (Document.setProp "[data-settings-overlay]" "open" (JS.bool_ true)) st)
  | ListCloseClick =>
      mret (withDoc (Document.setProp "[data-list-active]" "open" (JS.bool_ false)) st)
  | SettingsFormSubmit theme => mret (handleSettingsFormSubmit theme st)
  | SearchFormSubmit filters => mret (handleSearchFormSubmit filters st)
  | ShowMoreClick => mret (handleShowMoreButtonClick st)
  | ListItemsClick event => handleListItemClick event st
  end.

(** The handlers run one after the other, each to completion. *)
Fixpoint run (events : list Event) (st : St) : JS.result St :=
  match events with
  | [] => mret st
  | e :: rest => st' ← handle e st; run rest st'
  end.

(** Loading the script ([initialize(); setupEventListeners();]) in a
    document and then reacting to a sequence of triggers. *)
Definition load (w : Window.t) (markup : Doc) (events : list Event)
    : JS.result St :=
  st ← initialize w (initialState markup);
  run events st.

End Script.

(** ** A concrete deployment, used to run the model

    The theorems below hold for any helpers and any catalog; this module
    fixes one of each so that the script can be evaluated. *)
Module Demo.

Inductive Node : Type :=
| BookElement (p : Preview.t)
| OptionElement (value text : string).

(** Modelled from the spec: [createBookElement] of helper.js, which is not
    part of the sources.  The element carries the four fields it was built
    from; its reference tag is the entry id. *)
Definition createBookElement (p : Preview.t) : Node := BookElement p.

(** Modelled from the spec: [createOptionElement] of helper.js, which is
    not part of the sources.  The list starts with the option of value
    "any" labelled [allLabel], followed by one option per entry of the
    mapping, in the mapping's order. *)
Definition createOptionElement (mapping : list (string * string))
    (allLabel : string) : list Node :=
  OptionElement "any" allLabel
    :: ((fun kv => OptionElement (fst kv) (snd kv)) <$> mapping).

Definition book (id title author : string) (genres : list string) : Book.t :=
  Book.mk id title author ("img/" +:+ id) "" "1965-08-01" genres.

(** Five entries, two per page. *)
Definition books : list Book.t :=
  [ book "b1" "Dune" "herbert" ["scifi"];
    book "b2" "Dune Messiah" "herbert" ["scifi"; "drama"];
    book "b3" "Emma" "austen" ["romance"];
    book "b4" "Persuasion" "austen" ["romance"; "drama"];
    book "b5" "Ubik" "dick" [] ].

Definition authors : list (string * string) :=
  [ ("herbert", "Frank Herbert"); ("austen", "Jane Austen");
    ("dick", "Philip K. Dick") ].

Definition genres : list (string * string) :=
  [ ("scifi", "Science Fiction"); ("romance", "Romance"); ("drama", "Drama") ].

Definition BOOKS_PER_PAGE : Z := 2.

Definition getFullYear (s : string) : Z := 1965.

(** A page whose mount points are all empty. *)
Definition markup : Document.t Node := Document.mk ∅ ∅.

Definition noMatchMedia : Window.t := Window.mk None.

Definition darkHost : Window.t :=
  Window.mk (Some (fun q => Window.mkMql (String.eqb q "(prefers-color-scheme: dark)"))).

Definition load := load createBookElement createOptionElement books
                     authors genres BOOKS_PER_PAGE getFullYear.

(** The ids of the books shown in the list. *)
Definition shownIds (st : State.t Node) : list string :=
  omap (fun n => match n with
                 | BookElement p => Some (Preview.id p)
                 | OptionElement _ _ => None
                 end)
       (Document.childrenOf "[data-list-items]" (State.doc st)).

End Demo.

(** ** The filter constraints in the words of the specification *)

(** [needle] occurs in [hay] when both are compared without regard to
    case. *)
Definition containsIgnoringCase (hay needle : string) : Prop :=
  ∃ before after : string,
    JS.toLowerCase hay = before +:+ JS.toLowerCase needle +:+ after.

(** The title constraint, with the criterion taken as it was submitted. *)
Definition titlePasses (f : Filters.t) (b : Book.t) : Prop :=
  JS.trim (Filters.title f) = ""
  ∨ containsIgnoringCase (Book.title b) (Filters.title f).

(** The title constraint read with the trimmed criterion as the text that
    is searched for. *)
Definition titlePassesTrimmed (f : Filters.t) (b : Book.t) : Prop :=
  JS.trim (Filters.title f) = ""
  ∨ containsIgnoringCase (Book.title b) (JS.trim (Filters.title f)).

Definition authorPasses (f : Filters.t) (b : Book.t) : Prop :=
  Filters.author f = "any" ∨ Filters.author f = Book.author b.

Definition genrePasses (f : Filters.t) (b : Book.t) : Prop :=
  Filters.genre f = "any" ∨ Filters.genre f ∈ Book.genres b.

(** An RGB triple written the way the style variables hold it. *)
Definition rgb (r g b : Z) : string :=
  JS.toString r +:+ ", " +:+ JS.toString g +:+ ", " +:+ JS.toString b.

(** ** Pagination in the words of the specification *)

Section PaginationTerms.

Context {Node : Type}.
Variable BOOKS_PER_PAGE : Z.

(** The books shown in the list container. *)
Definition shown (st : State.t Node) : list Node :=
  Document.childrenOf "[data-list-items]" (State.doc st).

(** min(PageCursor * PAGE_SIZE, |MatchedSet|) *)
Definition renderedCount (st : State.t Node) : Z :=
  Z.min (State.page st * BOOKS_PER_PAGE) (Z.of_nat (length (State.matches st))).

(** The window [page * P, (page + 1) * P) of the next advance. *)
Definition advanceWindow (st : State.t Node) : Z * Z :=
  (State.page st * BOOKS_PER_PAGE, (State.page st + 1) * BOOKS_PER_PAGE)%Z.

(** What a trigger may do to the cursor and the matched set: a search
    replaces the set and resets the cursor, a show-more advances the
    cursor over the same set, anything else leaves both alone. *)
Definition cursorStep (books : list Book.t) (e : Event)
    (st st' : State.t Node) : Prop :=
  match e with
  | SearchFormSubmit f =>
      State.page st' = 1%Z ∧ State.matches st' = applyFilters books f
  | ShowMoreClick =>
      State.page st' = (State.page st + 1)%Z
      ∧ State.matches st' = State.matches st
  | _ =>
      State.page st' = State.page st ∧ State.matches st' = State.matches st
  end.

(** The list shows the first [page * BOOKS_PER_PAGE] matches, and the
    cursor is at least 1. *)
Definition listedPrefix (createBookElement : Preview.t → Node)
    (st : State.t Node) : Prop :=
  (1 ≤ State.page st)%Z
  ∧ shown st
    = (toBookElement createBookElement
         <$> take (Z.to_nat (State.page st * BOOKS_PER_PAGE))
               (State.matches st)).

(** A transition that leaves the cursor, the matched set, the list and
    the text of the show-more button alone. *)
Definition quiet (st st' : State.t Node) : Prop :=
  State.page st' = State.page st
  ∧ State.matches st' = State.matches st
  ∧ shown st' = shown st
  ∧ Document.getProp "[data-list-button]" "innerText" (State.doc st')
    = Document.getProp "[data-list-button]" "innerText" (State.doc st).

End PaginationTerms.

(** ** Further terms used to describe the handlers *)

(** Every code unit of the string is white space. *)
Fixpoint allWhiteSpace (s : string) : bool :=
  match s with
  | EmptyString => true
  | String c s' => JS.isWhiteSpace c && allWhiteSpace s'
  end.

(** What one node of the event path contributes to the click handler: the
    catalog entry whose id is the node's non-empty reference tag. *)
Definition taggedBook (books : list Book.t) (node : option Click.Target)
    : option Book.t :=
  if JS.truthy (Click.optPreview node)
  then findActiveBook books (Click.optPreview node)
  else None.

(** The first node of the path, from the target outwards, whose tag names
    a catalog entry. *)
Definition nearestTagged (books : list Book.t)
    (path : list (option Click.Target)) : option Book.t :=
  head (omap (taggedBook books) path).

Definition isSearch (e : Event) : bool :=
  match e with
  | SearchFormSubmit _ => true
  | _ => false
  end.

(** The theme selection and the two colour variables, as stored in the
    document. *)
Definition storedTheme {Node : Type} (d : Document.t Node)
    : JS.value * JS.value * JS.value :=
  (Document.getProp "[data-settings-theme]" "value" d,
   Document.getProp "documentElement.style" "--color-dark" d,
   Document.getProp "documentElement.style" "--color-light" d).

(** ** Facts about the built-ins *)

Module JSFacts.

Lemma strictEq_str (a b : string) : JS.strictEq a b = true ↔ a = b.
Proof. simpl. apply String.eqb_eq. Qed.

Lemma startsWith_spec (s p : string) :
  JS.startsWith s p = true ↔ ∃ rest, s = p +:+ rest.
Proof.
  revert s. induction p as [|a p IH]; intros s; simpl.
  - split; [intros _; by exists s | reflexivity].
  - destruct s as [|b s].
    + split; [discriminate | intros [rest [=]]].
    + rewrite andb_true_iff, Ascii.eqb_eq, IH. split.
      * intros [-> [rest ->]]. by exists rest.
      * intros [rest [= -> ->]]. eauto.
Qed.

Lemma includes_spec (s needle : string) :
  JS.includes s needle = true
  ↔ ∃ before after, s = before +:+ needle +:+ after.
Proof.
  induction s as [|c s IH]; simpl.
  - rewrite orb_false_r, startsWith_spec. split.
    + intros [rest ->]. by exists "", rest.
    + intros [[|? ?] [after [=]]]. by exists after.
  - rewrite orb_true_iff, IH.
    split.
    + intros [H | (before & after & ->)].
      * apply (startsWith_spec (String c s)) in H as [rest ->].
        by exists "", rest.
      * by exists (String c before), after.
    + intros [[|c' before] [after H]].
      * left. apply (startsWith_spec (String c s)). by exists after.
      * right. injection H as -> ->. eauto.
Qed.

Lemma includes_empty (s : string) : JS.includes s "" = true.
Proof. apply includes_spec. by exists "", s. Qed.

End JSFacts.

(** ** The filter engine *)

Section FilterEngine.

Variable books : list Book.t.

Lemma genreLoop_spec (f : Filters.t) (gm : bool) (gs : list string) :
  genreLoop f gm gs = true ↔ gm = true ∨ Filters.genre f ∈ gs.
Proof.
  revert gm. induction gs as [|g gs IH]; intros gm; simpl.
  - rewrite elem_of_nil. tauto.
  - destruct gm.
    + tauto.
    + rewrite IH, elem_of_cons.
      destruct (String.eqb_spec g (Filters.genre f)) as [-> | Hne].
      * tauto.
      * split; [tauto | intros [? | [? | ?]]; try discriminate;
                        [congruence | tauto]].
Qed.

Lemma genreMatch_spec (f : Filters.t) (b : Book.t) :
  genreMatch f b = true ↔ genrePasses f b.
Proof.
  unfold genreMatch, genrePasses.
  by rewrite genreLoop_spec, JSFacts.strictEq_str.
Qed.

Lemma authorMatch_spec (f : Filters.t) (b : Book.t) :
  authorMatch f b = true ↔ authorPasses f b.
Proof.
  unfold authorMatch, authorPasses.
  rewrite orb_true_iff, !JSFacts.strictEq_str. intuition congruence.
Qed.

Lemma titleMatch_spec (f : Filters.t) (b : Book.t) :
  titleMatch f b = true ↔ titlePasses f b.
Proof.
  unfold titleMatch, titlePasses, containsIgnoringCase.
  by rewrite orb_true_iff, JSFacts.strictEq_str, JSFacts.includes_spec.
Qed.

Lemma filterCallback_spec (f : Filters.t) (b : Book.t) :
  filterCallback f b = true
  ↔ titlePasses f b ∧ authorPasses f b ∧ genrePasses f b.
Proof.
  unfold filterCallback; cbv zeta.
  rewrite !andb_true_iff, titleMatch_spec, authorMatch_spec, genreMatch_spec.
  tauto.
Qed.

Lemma filter_sublist {A} (p : A → bool) (l : list A) :
  List.filter p l `sublist_of` l.
Proof.
  induction l as [|x l IH]; simpl; [constructor|].
  destruct (p x); by constructor.
Qed.

Lemma elem_of_List_filter {A} (p : A → bool) (l : list A) (x : A) :
  x ∈ List.filter p l ↔ x ∈ l ∧ p x = true.
Proof. rewrite !list_elem_of_In. apply filter_In. Qed.

Lemma filter_all {A} (p : A → bool) (l : list A) :
  (∀ x, p x = true) → List.filter p l = l.
Proof.
  intros Hp. induction l as [|x l IH]; simpl; [done|].
  by rewrite Hp, IH.
Qed.

(** C1 (amended): the result of [applyFilters] is a subsequence of the
    catalog in the catalog's order, and an entry is in it exactly when it
    is in the catalog and the three constraints pass: the trimmed title
    criterion is empty or the entry's title contains, without regard to
    case, the title criterion as it was submitted (not trimmed); the
    author criterion is "any" or is the entry's author key; the genre
    criterion is "any" or is one of the entry's genres. *)
Theorem applyFilters_subsequence_iff (f : Filters.t) :
  applyFilters books f `sublist_of` books
  ∧ ∀ b, b ∈ applyFilters books f
         ↔ b ∈ books ∧ titlePasses f b ∧ authorPasses f b ∧ genrePasses f b.
Proof.
  split.
  - apply filter_sublist.
  - intros b. unfold applyFilters.
    by rewrite elem_of_List_filter, filterCallback_spec.
Qed.

(** C9: the criteria with an empty title and the sentinel "any" for
    author and genre return the whole catalog, unchanged in contents and
    order. *)
Theorem applyFilters_identity :
  applyFilters books (Filters.mk "" "any" "any") = books.
Proof.
  apply filter_all. intros b. apply filterCallback_spec.
  repeat split; by left.
Qed.

End FilterEngine.

(** C1, as stated, fails: the criterion " dune" trims to "dune", which the
    title "Dune" contains without regard to case, yet the entry is not
    returned, because the text searched for is the untrimmed criterion. *)
Lemma applyFilters_trimmed_needle_fails :
  let f := Filters.mk " dune" "any" "any" in
  let b := Demo.book "b1" "Dune" "herbert" ["scifi"] in
  ¬ (b ∈ applyFilters [b] f
     ↔ b ∈ [b] ∧ titlePassesTrimmed f b ∧ authorPasses f b ∧ genrePasses f b).
Proof.
  intros f b [_ Hback].
  assert (Hin : b ∈ applyFilters [b] f).
  { apply Hback. split; [apply list_elem_of_here|]. split; [|split].
    - right. by exists "", "".
    - by left.
    - by left. }
  vm_compute in Hin. by apply elem_of_nil in Hin.
Qed.

(** C5: the title constraint computed by the filter passes exactly when
    the trimmed title criterion is empty or the entry's title contains the
    title criterion without regard to case; the criterion "DUNE" matches
    the entry titled "Dune Messiah". *)
Theorem titleMatch_iff_titlePasses :
  (∀ f b, titleMatch f b = true ↔ titlePasses f b)
  ∧ (let f := Filters.mk "DUNE" "any" "any" in
     let b := Demo.book "b2" "Dune Messiah" "herbert" ["scifi"; "drama"] in
     titleMatch f b = true ∧ b ∈ applyFilters Demo.books f).
Proof.
  split; [apply titleMatch_spec|].
  split; [reflexivity|].
  vm_compute. apply list_elem_of_further, list_elem_of_here.
Qed.

(** ** More on the built-ins: blank strings and concatenation *)

Module StringFacts.

Lemma append_cons (c : ascii) (a b : string) :
  String c a +:+ b = String c (a +:+ b).
Proof. reflexivity. Qed.

Lemma append_nil_l (s : string) : "" +:+ s = s.
Proof. reflexivity. Qed.

Lemma append_nil_r (s : string) : s +:+ "" = s.
Proof.
  induction s as [|c s IH]; [done|]. by rewrite append_cons, IH.
Qed.




Lemma trimEnd_keeps_head (c : ascii) (s : string) :
  JS.isWhiteSpace c = false → JS.trimEnd (String c s) ≠ "".
Proof. intros Hc. simpl. destruct (JS.trimEnd s); by rewrite ?Hc. Qed.

(** [trim] returns the empty string exactly on blank strings. *)
Lemma trim_empty_iff (s : string) :
  JS.trim s = "" ↔ allWhiteSpace s = true.
Proof.
  unfold JS.trim. induction s as [|c s IH]; simpl; [done|].
  destruct (JS.isWhiteSpace c) eqn:Hc; simpl; [done|].
  split; [|discriminate].
  intros H. by apply (trimEnd_keeps_head c s Hc) in H.
Qed.

Lemma includes_self (s : string) : JS.includes s s = true.
Proof.
  apply JSFacts.includes_spec. exists "", "".
  by rewrite append_nil_l, append_nil_r.
Qed.


End StringFacts.

(** ** Relaxing and refining the criteria *)

Section FilterRefinements.

Variable books : list Book.t.

Lemma filter_sublist_mono {A} (p q : A → bool) (l : list A) :
  (∀ x, p x = true → q x = true) →
  List.filter p l `sublist_of` List.filter q l.
Proof.
  intros Hpq. induction l as [|x l IH]; simpl; [constructor|].
  destruct (p x) eqn:Hp.
  - rewrite (Hpq x Hp). by constructor.
  - destruct (q x); [by constructor | done].
Qed.

Lemma filter_ext_bool {A} (p q : A → bool) (l : list A) :
  (∀ x, p x = q x) → List.filter p l = List.filter q l.
Proof.
  intros Hpq. induction l as [|x l IH]; simpl; [done|].
  by rewrite Hpq, IH.
Qed.

(** The genre loop reads nothing of the criteria but the genre. *)
Lemma genreLoop_ext (f f' : Filters.t) (gm : bool) (gs : list string) :
  Filters.genre f = Filters.genre f' → genreLoop f gm gs = genreLoop f' gm gs.
Proof.
  intros Hg. revert gm. induction gs as [|x gs IH]; intros gm; simpl; [done|].
  destruct gm; [done|]. by rewrite Hg, IH.
Qed.

Lemma genreMatch_ext (f f' : Filters.t) (b : Book.t) :
  Filters.genre f = Filters.genre f' → genreMatch f b = genreMatch f' b.
Proof.
  intros Hg. unfold genreMatch. by rewrite (genreLoop_ext f f'), Hg.
Qed.

Lemma titleMatch_blank (t : string) (a g : string) (b : Book.t) :
  allWhiteSpace t = true → titleMatch (Filters.mk t a g) b = true.
Proof.
  intros Ht. unfold titleMatch; simpl.
  apply StringFacts.trim_empty_iff in Ht. by rewrite Ht.
Qed.

(** X1: a title criterion made of white space only constrains nothing:
    the result is the one for the empty title. *)
Theorem applyFilters_blank_title (t a g : string) :
  allWhiteSpace t = true →
  applyFilters books (Filters.mk t a g) = applyFilters books (Filters.mk "" a g).
Proof.
  intros Ht. apply filter_ext_bool. intros b. unfold filterCallback; cbv zeta.
  rewrite (titleMatch_blank t a g b Ht), (titleMatch_blank "" a g b) by done.
  by rewrite (genreMatch_ext (Filters.mk t a g) (Filters.mk "" a g)).
Qed.

(** X2: a book of the catalog is found by its own title, in whatever
    letter case the title is typed, when author and genre are "any". *)
Theorem applyFilters_finds_own_title (q : string) (b : Book.t) :
  b ∈ books →
  JS.toLowerCase q = JS.toLowerCase (Book.title b) →
  b ∈ applyFilters books (Filters.mk q "any" "any").
Proof.
  intros Hb Hq. apply elem_of_List_filter. split; [done|].
  unfold filterCallback, titleMatch, authorMatch, genreMatch; simpl.
  rewrite Hq, StringFacts.includes_self, orb_true_r. simpl.
  by destruct (Book.genres b).
Qed.


(** X4: replacing the author criterion or the genre criterion by "any"
    returns at least what the original criteria return, in the same
    order. *)
Theorem applyFilters_relax_to_any (f : Filters.t) :
  applyFilters books f
    `sublist_of` applyFilters books
                   (Filters.mk (Filters.title f) "any" (Filters.genre f))
  ∧ applyFilters books f
    `sublist_of` applyFilters books
                   (Filters.mk (Filters.title f) (Filters.author f) "any").
Proof.
  split; apply filter_sublist_mono; intros b; unfold filterCallback; simpl;
    rewrite !andb_true_iff; intros [[Ht Ha] Hg].
  - split; [split; [exact Ht | done]|].
    by rewrite (genreMatch_ext _ f).
  - split; [split; [exact Ht | exact Ha]|].
    unfold genreMatch; simpl. by destruct (Book.genres b).
Qed.

End FilterRefinements.

Lemma applyFilters_blank_title_witness :
  allWhiteSpace "   " = true
  ∧ applyFilters Demo.books (Filters.mk "   " "austen" "any")
    = applyFilters Demo.books (Filters.mk "" "austen" "any").
Proof.
  split; [reflexivity|].
  apply (applyFilters_blank_title Demo.books "   " "austen" "any").
  reflexivity.
Defined.

Lemma applyFilters_finds_own_title_witness :
  let b := Demo.book "b3" "Emma" "austen" ["romance"] in
  b ∈ Demo.books
  ∧ JS.toLowerCase "EMMA" = JS.toLowerCase (Book.title b)
  ∧ b ∈ applyFilters Demo.books (Filters.mk "EMMA" "any" "any").
Proof.
  intros b.
  assert (Hb : b ∈ Demo.books)
    by (do 2 apply list_elem_of_further; apply list_elem_of_here).
  split; [exact Hb|]. split; [reflexivity|].
  apply (applyFilters_finds_own_title Demo.books "EMMA" b Hb). reflexivity.
Defined.

(** ** The document model *)

Section DocumentFacts.

Context {Node : Type}.
Implicit Types d : Document.t Node.

Lemma getProp_setProp_eq sel prop v d :
  Document.getProp sel prop (Document.setProp sel prop v d) = v.
Proof. unfold Document.getProp; simpl. by rewrite lookup_insert_eq. Qed.

Lemma getProp_setProp_ne sel prop sel' prop' v d :
  (sel', prop') ≠ (sel, prop) →
  Document.getProp sel prop (Document.setProp sel' prop' v d)
  = Document.getProp sel prop d.
Proof. intros. unfold Document.getProp; simpl. by rewrite lookup_insert_ne. Qed.

Lemma childrenOf_setProp sel sel' prop v d :
  Document.childrenOf sel (Document.setProp sel' prop v d)
  = Document.childrenOf sel d.
Proof. reflexivity. Qed.

Lemma getProp_appendChild sel prop sel' fragment d :
  Document.getProp sel prop (Document.appendChild sel' fragment d)
  = Document.getProp sel prop d.
Proof. reflexivity. Qed.

Lemma getProp_clearChildren sel prop sel' d :
  Document.getProp sel prop (Document.clearChildren sel' d)
  = Document.getProp sel prop d.
Proof. reflexivity. Qed.

Lemma childrenOf_appendChild_eq sel fragment d :
  Document.childrenOf sel (Document.appendChild sel fragment d)
  = Document.childrenOf sel d ++ fragment.
Proof.
  unfold Document.childrenOf at 1; simpl. by rewrite lookup_insert_eq.
Qed.

Lemma childrenOf_appendChild_ne sel sel' fragment d :
  sel' ≠ sel →
  Document.childrenOf sel (Document.appendChild sel' fragment d)
  = Document.childrenOf sel d.
Proof.
  intros. unfold Document.childrenOf at 1; simpl.
  by rewrite lookup_insert_ne.
Qed.

Lemma childrenOf_clearChildren_eq sel d :
  Document.childrenOf sel (Document.clearChildren sel d) = [].
Proof. unfold Document.childrenOf; simpl. by rewrite lookup_insert_eq. Qed.

End DocumentFacts.

(** Reading a property back through a chain of assignments. *)
Ltac read_prop :=
  repeat first
    [ rewrite getProp_setProp_eq
    | rewrite getProp_setProp_ne by (intros [=])
    | rewrite getProp_appendChild
    | rewrite getProp_clearChildren ].

(** ** The theme controller *)

Section ThemeController.

Context {Node : Type}.
Implicit Types d : Document.t Node.

Lemma setThemeColors_props theme d :
  Document.getProp "[data-settings-theme]" "value" (setThemeColors theme d)
    = theme
  ∧ Document.getProp "documentElement.style" "--color-dark"
      (setThemeColors theme d) = JS.str (Colors.darkColor (themeColors theme))
  ∧ Document.getProp "documentElement.style" "--color-light"
      (setThemeColors theme d) = JS.str (Colors.lightColor (themeColors theme)).
Proof. unfold setThemeColors; cbv zeta. by read_prop. Qed.

Lemma strictEq_night (theme : JS.value) :
  JS.strictEq theme "night" = true ↔ theme = JS.str "night".
Proof.
  destruct theme as [|s|b|n]; simpl; try (split; [discriminate|done]).
  rewrite String.eqb_eq. split; [by intros ->|by intros [=]].
Qed.

(** C6: the palette of "night" has darkColor (255,255,255) and
    lightColor (10,10,20), the palette of "day" has the two swapped, so
    the darkColor of each is the lightColor of the other; these are the
    values written to the two style variables. *)
Theorem themeColors_night_day_swapped :
  Colors.darkColor (themeColors "night") = Colors.lightColor (themeColors "day")
  ∧ Colors.lightColor (themeColors "night") = Colors.darkColor (themeColors "day")
  ∧ themeColors "night" = Colors.mk (rgb 255 255 255) (rgb 10 10 20)
  ∧ themeColors "day" = Colors.mk (rgb 10 10 20) (rgb 255 255 255)
  ∧ ∀ d,
      Document.getProp "documentElement.style" "--color-dark"
        (setThemeColors "night" d)
      = Document.getProp "documentElement.style" "--color-light"
          (setThemeColors "day" d)
      ∧ Document.getProp "documentElement.style" "--color-light"
          (setThemeColors "night" d)
        = Document.getProp "documentElement.style" "--color-dark"
            (setThemeColors "day" d).
Proof.
  do 4 (split; [reflexivity|]). intros d.
  destruct (setThemeColors_props "night" d) as (_ & -> & ->).
  destruct (setThemeColors_props "day" d) as (_ & -> & ->).
  by split.
Qed.

(** C10: for every theme value other than the string "night",
    [setThemeColors] applies the day palette (darkColor "10, 10, 20",
    lightColor "255, 255, 255") and not the night palette. *)
Theorem setThemeColors_day_unless_night (theme : JS.value) d :
  theme ≠ JS.str "night" →
  themeColors theme = Colors.mk "10, 10, 20" "255, 255, 255"
  ∧ themeColors theme ≠ themeColors "night"
  ∧ Document.getProp "documentElement.style" "--color-dark"
      (setThemeColors theme d) = JS.str "10, 10, 20"
  ∧ Document.getProp "documentElement.style" "--color-light"
      (setThemeColors theme d) = JS.str "255, 255, 255".
Proof.
  intros Hne.
  assert (Hday : themeColors theme = Colors.mk "10, 10, 20" "255, 255, 255").
  { unfold themeColors.
    destruct (JS.strictEq theme "night") eqn:E; [|done].
    by apply strictEq_night in E. }
  destruct (setThemeColors_props theme d) as (_ & -> & ->).
  rewrite Hday. by repeat split.
Qed.

(** C7: without [window.matchMedia] the theme check does not throw and
    selects "day"; with it, the theme is "night" when the query for a
    dark colour scheme matches, and "day" otherwise. *)
Theorem checkAndSetTheme_never_throws d :
  checkAndSetTheme (Window.mk None) d = JS.Ok (setThemeColors "day" d)
  ∧ Document.getProp "[data-settings-theme]" "value"
      (setThemeColors "day" d) = JS.str "day"
  ∧ ∀ query,
      checkAndSetTheme (Window.mk (Some query)) d
      = JS.Ok (setThemeColors
                 (if Window.matches (query "(prefers-color-scheme: dark)")
                  then JS.str "night" else JS.str "day") d).
Proof.
  split; [reflexivity|]. split; [apply setThemeColors_props|].
  intros query. unfold checkAndSetTheme, Window.callMatchMedia; simpl.
  by destruct (Window.matches _).
Qed.

End ThemeController.

Lemma setThemeColors_day_unless_night_witness :
  JS.str "NIGHT" ≠ JS.str "night"
  ∧ Document.getProp "documentElement.style" "--color-dark"
      (setThemeColors "NIGHT" Demo.markup) = JS.str "10, 10, 20".
Proof.
  split; [discriminate|].
  apply (setThemeColors_day_unless_night "NIGHT" Demo.markup). discriminate.
Defined.

(** ** Array.prototype.slice on non-negative bounds *)

Section Slice.

Context {A : Type}.
Implicit Types l : list A.

Lemma slice_lookup (a b : Z) l (i : nat) :
  (0 ≤ a)%Z → (0 ≤ b)%Z →
  JS.slice a b l !! i
  = if decide (a + Z.of_nat i < b)%Z then l !! (Z.to_nat a + i)%nat else None.
Proof.
  intros Ha Hb. unfold JS.slice, JS.relativeIndex.
  destruct (Z.ltb_spec a 0), (Z.ltb_spec b 0); try lia.
  rewrite lookup_take, lookup_drop.
  repeat case_decide; try done.
  - f_equal. lia.
  - lia.
  - symmetry. apply lookup_ge_None_2. lia.
Qed.

Lemma slice_take_drop (a b : Z) l :
  (0 ≤ a ≤ b)%Z →
  JS.slice a b l = take (Z.to_nat b - Z.to_nat a) (drop (Z.to_nat a) l).
Proof.
  intros Hab. apply list_eq; intros i.
  rewrite slice_lookup, lookup_take, lookup_drop by lia.
  repeat case_decide; try done; lia.
Qed.

(** Appending the window [a, b) to the first [a] entries gives the first
    [b] entries. *)
Lemma take_app_slice (a b : Z) l :
  (0 ≤ a ≤ b)%Z →
  take (Z.to_nat a) l ++ JS.slice a b l = take (Z.to_nat b) l.
Proof.
  intros Hab. rewrite slice_take_drop, take_take_drop by done.
  f_equal. lia.
Qed.

Lemma slice_from_zero (b : Z) l :
  (0 ≤ b)%Z → JS.slice 0 b l = take (Z.to_nat b) l.
Proof. intros Hb. by rewrite <- (take_app_slice 0 b l) by lia. Qed.

Lemma slice_past_end (a b : Z) l :
  (Z.of_nat (length l) ≤ a)%Z → (0 ≤ b)%Z → JS.slice a b l = [].
Proof.
  intros Ha Hb. apply list_eq; intros i.
  rewrite slice_lookup by lia. case_decide; [|done].
  apply lookup_ge_None_2. lia.
Qed.

Lemma take_min (n : Z) l :
  take (Z.to_nat (Z.min n (Z.of_nat (length l)))) l = take (Z.to_nat n) l.
Proof.
  destruct (Z.le_gt_cases n (Z.of_nat (length l))).
  - by rewrite Z.min_l.
  - rewrite Z.min_r, Nat2Z.id, !take_ge by lia. done.
Qed.

End Slice.

(** ** The click router *)

Section ClickRouter.

Variable books : list Book.t.

Lemma getPreview_guarded (node : option Click.Target) :
  JS.truthy (Click.optPreview node) = true →
  Click.getPreview node = JS.Ok (Click.optPreview node).
Proof.
  destruct node as [[[ds|]]|]; simpl; try discriminate. done.
Qed.

(** The optional chaining in the test protects the plain accesses in the
    body: the loop never throws. *)
Lemma pathLoop_total (active : option Book.t) path :
  ∃ found, pathLoop books active path = JS.Ok found.
Proof.
  revert active. induction path as [|node path IH]; intros active; simpl.
  - by exists active.
  - destruct active as [b|]; [by exists (Some b)|].
    destruct (JS.truthy (Click.optPreview node)) eqn:E; [|apply IH].
    rewrite (getPreview_guarded _ E); simpl. apply IH.
Qed.

Lemma pathLoop_untagged path :
  (∀ node, node ∈ path → Click.optPreview node = JS.undefined) →
  pathLoop books None path = JS.Ok None.
Proof.
  induction path as [|node path IH]; intros Hpath; simpl; [done|].
  rewrite (Hpath node) by apply list_elem_of_here. simpl.
  apply IH. intros n Hn. apply Hpath. by apply list_elem_of_further.
Qed.

End ClickRouter.

(** ** Resolving a click to a catalog entry *)

Section ClickLookup.

Context {Node : Type}.
Variable books : list Book.t.
Variable authors : list (string * string).
Variable getFullYear : string → Z.

Lemma strictEq_spec (a b : JS.value) : JS.strictEq a b = true ↔ a = b.
Proof.
  destruct a as [|x|x|x], b as [|y|y|y]; simpl;
    try (split; [discriminate|done]); try done.
  - rewrite String.eqb_eq. split; [by intros ->|by intros [=]].
  - rewrite Bool.eqb_true_iff. split; [by intros ->|by intros [=]].
  - rewrite Z.eqb_eq. split; [by intros ->|by intros [=]].
Qed.

(** X5: [findActiveBook] returns the first entry of the catalog whose id
    is the given value, and nothing exactly when no entry has that id. *)
Theorem findActiveBook_first_match (id : JS.value) :
  match findActiveBook books id with
  | Some b =>
      ∃ earlier later,
        books = earlier ++ b :: later
        ∧ JS.str (Book.id b) = id
        ∧ ∀ x, x ∈ earlier → JS.str (Book.id x) ≠ id
  | None => ∀ x, x ∈ books → JS.str (Book.id x) ≠ id
  end.
Proof.
  unfold findActiveBook. induction books as [|b0 bs IH]; cbn [find].
  - intros x Hx. by apply elem_of_nil in Hx.
  - destruct (JS.strictEq (Book.id b0) id) eqn:E.
    + apply strictEq_spec in E. exists [], bs. split; [done|]. split; [done|].
      intros x Hx. by apply elem_of_nil in Hx.
    + assert (JS.str (Book.id b0) ≠ id) as Hne.
      { intros H. apply strictEq_spec in H. congruence. }
      destruct (find _ bs) as [b|].
      * destruct IH as (earlier & later & -> & Hid & Hearlier).
        exists (b0 :: earlier), later. split; [done|]. split; [done|].
        intros x [-> | Hx]%elem_of_cons; [done | by apply Hearlier].
      * intros x [-> | Hx]%elem_of_cons; [done | by apply IH].
Qed.

Lemma findActiveBook_elem_of (id : JS.value) (b : Book.t) :
  findActiveBook books id = Some b → b ∈ books.
Proof.
  intros H. apply list_elem_of_In. by apply find_some in H as [? _].
Qed.

Lemma pathLoop_found (b : Book.t) path :
  pathLoop books (Some b) path = JS.Ok (Some b).
Proof. by destruct path. Qed.

Lemma pathLoop_nearest path :
  pathLoop books None path = JS.Ok (nearestTagged books path).
Proof.
  unfold nearestTagged. induction path as [|node path IH]; simpl; [done|].
  unfold taggedBook at 1.
  destruct (JS.truthy (Click.optPreview node)) eqn:E; [|apply IH].
  rewrite (getPreview_guarded _ E); simpl.
  destruct (findActiveBook books (Click.optPreview node)) as [b|]; simpl.
  - apply pathLoop_found.
  - apply IH.
Qed.

(** X6: the click handler never throws; it shows the entry named by the
    first node of the event path, from the target outwards, whose tag is a
    non-empty string that is the id of a catalog entry, and does nothing
    when there is no such node: nodes without a tag, with an empty tag or
    with a tag that names no entry are passed over. *)
Theorem handleListItemClick_nearest_tagged (event : Click.t)
    (st : State.t Node) :
  handleListItemClick books authors getFullYear event st
  = JS.Ok match nearestTagged books (Click.eventPath event) with
          | Some b => withDoc (showActiveBook authors getFullYear b) st
          | None => st
          end.
Proof.
  unfold handleListItemClick. rewrite pathLoop_nearest; simpl.
  by destruct (nearestTagged _ _).
Qed.

Lemma nearestTagged_elem_of path (b : Book.t) :
  nearestTagged books path = Some b → b ∈ books.
Proof.
  unfold nearestTagged. induction path as [|node path IH]; simpl; [done|].
  destruct (taggedBook books node) as [b'|] eqn:E; simpl; [|apply IH].
  intros [= ->]. unfold taggedBook in E.
  destruct (JS.truthy _); [|done]. by apply findActiveBook_elem_of in E.
Qed.

(** X7: a click whose path leads to a tagged catalog entry opens the
    detail overlay with that entry's data: both image slots get the
    entry's image, the title and description are the entry's, the
    subtitle is the author's display name followed by the year in
    parentheses.  The entry comes from the whole catalog, whatever the
    current matches are, and the list, the cursor and the matches are left
    alone. *)
Theorem handleListItemClick_opens_overlay (event : Click.t)
    (st : State.t Node) (b : Book.t) :
  nearestTagged books (Click.eventPath event) = Some b →
  ∃ st',
    handleListItemClick books authors getFullYear event st = JS.Ok st'
    ∧ b ∈ books
    ∧ quiet st st'
    ∧ Document.getProp "[data-list-active]" "open" (State.doc st')
      = JS.bool_ true
    ∧ Document.getProp "[data-list-blur]" "src" (State.doc st')
      = JS.str (Book.image b)
    ∧ Document.getProp "[data-list-image]" "src" (State.doc st')
      = JS.str (Book.image b)
    ∧ Document.getProp "[data-list-title]" "innerText" (State.doc st')
      = JS.str (Book.title b)
    ∧ Document.getProp "[data-list-subtitle]" "innerText" (State.doc st')
      = JS.str (JS.valueToString (authorName authors (Book.author b))
                +:+ " (" +:+ JS.toString (getFullYear (Book.published b))
                +:+ ")")
    ∧ Document.getProp "[data-list-description]" "innerText" (State.doc st')
      = JS.str (Book.description b).
Proof.
  intros Hb. unfold handleListItemClick.
  rewrite pathLoop_nearest, Hb; simpl.
  eexists. split; [reflexivity|].
  split; [by apply nearestTagged_elem_of in Hb|].
  unfold quiet, shown, withDoc, showActiveBook; simpl.
  repeat split; by read_prop.
Qed.



End ClickLookup.

Lemma handleListItemClick_opens_overlay_witness :
  let event :=
    Click.mk None
      [ Some (Click.mkTarget (Some (Click.mkDataset JS.undefined)));
        Some (Click.mkTarget (Some (Click.mkDataset (JS.str ""))));
        Some (Click.mkTarget (Some (Click.mkDataset (JS.str "nothing"))));
        Some (Click.mkTarget (Some (Click.mkDataset (JS.str "b3"))));
        Some (Click.mkTarget (Some (Click.mkDataset (JS.str "b1"))));
        Some (Click.mkTarget None) ] in
  let b := Demo.book "b3" "Emma" "austen" ["romance"] in
  let st := State.mk 4 [] Demo.markup in
  nearestTagged Demo.books (Click.eventPath event) = Some b
  ∧ ∃ st',
      handleListItemClick Demo.books Demo.authors Demo.getFullYear event st
        = JS.Ok st'
      ∧ Document.getProp "[data-list-subtitle]" "innerText" (State.doc st')
        = JS.str "Jane Austen (1965)".
Proof.
  intros event b st. split; [reflexivity|].
  destruct (handleListItemClick_opens_overlay Demo.books Demo.authors
              Demo.getFullYear event st b eq_refl)
    as (st' & E & _ & _ & _ & _ & _ & _ & Hsub & _).
  exists st'. split; [exact E | exact Hsub].
Defined.

(** ** The handlers as transitions of the application state *)

Section Transitions.

Context {Node : Type}.
Variable createBookElement : Preview.t → Node.
Variable createOptionElement : list (string * string) → string → list Node.
Variable books : list Book.t.
Variable authors genres : list (string * string).
Variable BOOKS_PER_PAGE : Z.
Variable getFullYear : string → Z.

Implicit Types st : State.t Node.

Local Abbreviation element := (toBookElement createBookElement).
Local Abbreviation click := (handleShowMoreButtonClick createBookElement BOOKS_PER_PAGE).
Local Abbreviation reset := (updateBookList createBookElement books BOOKS_PER_PAGE).
Local Abbreviation react :=
  (handle createBookElement books authors BOOKS_PER_PAGE getFullYear).
Local Abbreviation runs :=
  (run createBookElement books authors BOOKS_PER_PAGE getFullYear).
Local Abbreviation boot :=
  (initialize createBookElement createOptionElement books authors genres
     BOOKS_PER_PAGE).
Local Abbreviation loads :=
  (load createBookElement createOptionElement books authors genres
     BOOKS_PER_PAGE getFullYear).
Local Abbreviation label :=
  (JS.str ("Show more (" +:+ JS.toString (remainingBooks books BOOKS_PER_PAGE)
           +:+ ")")).
Local Abbreviation buttonText st :=
  (Document.getProp "[data-list-button]" "innerText" (State.doc st)).

Lemma click_spec st :
  State.page (click st) = (State.page st + 1)%Z
  ∧ State.matches (click st) = State.matches st
  ∧ shown (click st)
    = shown st
      ++ (element <$> JS.slice (State.page st * BOOKS_PER_PAGE)
                        ((State.page st + 1) * BOOKS_PER_PAGE)
                        (State.matches st))
  ∧ buttonText (click st) = buttonText st.
Proof.
  repeat split.
  unfold shown, handleShowMoreButtonClick, withDoc, appendElements; simpl.
  by rewrite childrenOf_appendChild_eq.
Qed.

Lemma reset_spec result st :
  State.page (reset result st) = 1%Z
  ∧ State.matches (reset result st) = result
  ∧ shown (reset result st) = (element <$> JS.slice 0 BOOKS_PER_PAGE result)
  ∧ buttonText (reset result st) = label.
Proof.
  repeat split.
  - unfold shown, updateBookList, createBookList, withDoc, appendElements,
      updateShowMoreButton; simpl.
    rewrite ?childrenOf_setProp, childrenOf_appendChild_eq.
    by rewrite childrenOf_clearChildren_eq.
  - unfold updateBookList, createBookList, withDoc, updateShowMoreButton;
      simpl.
    by read_prop.
Qed.

Lemma showActiveBook_quiet (b : Book.t) st :
  quiet st (withDoc (showActiveBook authors getFullYear b) st).
Proof.
  repeat split. unfold withDoc, showActiveBook; simpl. by read_prop.
Qed.

Lemma setProp_quiet sel prop v st :
  (sel, prop) ≠ ("[data-list-button]", "innerText") →
  quiet st (withDoc (Document.setProp sel prop v) st).
Proof.
  intros. repeat split. unfold withDoc; simpl.
  by rewrite getProp_setProp_ne.
Qed.

Lemma quiet_trans st1 st2 st3 : quiet st1 st2 → quiet st2 st3 → quiet st1 st3.
Proof. unfold quiet. intros (-> & -> & -> & ->) (-> & -> & -> & ->). done. Qed.

(** Every trigger is handled without an exception, and either is a
    search, or a show-more, or leaves the list alone. *)
Lemma react_cases (e : Event) st :
  ∃ st', react e st = JS.Ok st'
    ∧ match e with
      | SearchFormSubmit f => st' = reset (applyFilters books f) st
      | ShowMoreClick => st' = click st
      | _ => quiet st st'
      end.
Proof.
  destruct e as [| | | | |theme|f| |event]; simpl;
    try (eexists; split; [reflexivity|]);
    try (apply setProp_quiet; intros [=]); try done.
  - eapply quiet_trans; apply setProp_quiet; intros [=].
  - repeat split.
    unfold handleSettingsFormSubmit, setThemeColors, withDoc; simpl.
    by read_prop.
  - unfold handleListItemClick.
    destruct (pathLoop_total books None (Click.eventPath event)) as [[b|] ->];
      simpl; eexists; (split; [reflexivity|]).
    + apply showActiveBook_quiet.
    + done.
Qed.

Lemma childrenOf_updateShowMoreButton sel (d : Document.t Node) :
  Document.childrenOf sel (updateShowMoreButton books BOOKS_PER_PAGE d)
  = Document.childrenOf sel d.
Proof. reflexivity. Qed.

Lemma childrenOf_setThemeColors sel theme (d : Document.t Node) :
  Document.childrenOf sel (setThemeColors theme d) = Document.childrenOf sel d.
Proof. reflexivity. Qed.

Lemma boot_spec (w : Window.t) (markup : Document.t Node) :
  ∃ st0, boot w (initialState books markup) = JS.Ok st0
    ∧ State.page st0 = 1%Z
    ∧ State.matches st0 = books
    ∧ shown st0
      = Document.childrenOf "[data-list-items]" markup
        ++ (element <$> JS.slice 0 BOOKS_PER_PAGE books)
    ∧ buttonText st0 = label.
Proof.
  unfold initialize, checkAndSetTheme, Window.callMatchMedia.
  destruct (Window.matchMedia w) as [query|]; simpl;
    (eexists; split; [reflexivity|]); simpl; repeat split;
    try (unfold updateShowMoreButton; by read_prop);
    unfold shown, createOptionLists, appendElements; simpl;
    rewrite childrenOf_updateShowMoreButton, childrenOf_setThemeColors;
    rewrite !childrenOf_appendChild_ne by (intros [=]);
    apply childrenOf_appendChild_eq.
Qed.

(** A property that holds after [initialize] and that every handler
    keeps holds after any sequence of triggers, and no trigger throws. *)
Lemma runs_invariant (I : State.t Node → Prop) (events : list Event) st :
  (∀ e s s', I s → react e s = JS.Ok s' → I s') →
  I st → ∃ st', runs events st = JS.Ok st' ∧ I st'.
Proof.
  intros Hstep. revert st.
  induction events as [|e events IH]; intros st Hst; simpl.
  - by exists st.
  - destruct (react_cases e st) as (s' & He & _).
    rewrite He; simpl. apply IH. by apply (Hstep e st).
Qed.

Lemma loads_invariant (I : State.t Node → Prop) w markup events :
  (∀ st0, boot w (initialState books markup) = JS.Ok st0 → I st0) →
  (∀ e s s', I s → react e s = JS.Ok s' → I s') →
  ∃ st, loads w markup events = JS.Ok st ∧ I st.
Proof.
  intros Hboot Hstep. unfold load.
  destruct (boot_spec w markup) as (st0 & E & _).
  rewrite E; simpl. by apply runs_invariant, Hboot.
Qed.

(** *** The show-more label *)

(** C3: the remaining count is max(catalog length - page size, 0),
    computed from the catalog and not from the matched set; the label of
    the show-more button is the one written at initialization in every
    state the script can reach, in particular after any search, whatever
    the search returned. *)
Theorem showMore_label_from_catalog :
  remainingBooks books BOOKS_PER_PAGE
    = Z.max (Z.of_nat (length books) - BOOKS_PER_PAGE) 0
  ∧ (∀ w markup events,
       ∃ st, loads w markup events = JS.Ok st ∧ buttonText st = label)
  ∧ (∀ result st, buttonText (reset result st) = label).
Proof.
  split; [reflexivity|]. split; [|intros; apply reset_spec].
  intros w markup events. apply loads_invariant.
  - intros st0 E. destruct (boot_spec w markup) as (s & E' & _ & _ & _ & H).
    congruence.
  - intros e s s' Hs E.
    destruct (react_cases e s) as (s2 & E2 & Hcase).
    assert (s2 = s') as -> by congruence.
    destruct e; try (destruct Hcase as (_ & _ & _ & ->); done).
    + subst s'. apply reset_spec.
    + subst s'. by rewrite (proj2 (proj2 (proj2 (click_spec s)))).
Qed.

(** *** The list-item click *)

(** C8: when no entry of the event path carries an entry-reference tag,
    the click handler finds no book, returns normally and leaves the
    state, and so the detail overlay, as it was. *)
Theorem handleListItemClick_untagged_noop (event : Click.t) st :
  (∀ node, node ∈ Click.eventPath event
           → Click.optPreview node = JS.undefined) →
  pathLoop books None (Click.eventPath event) = JS.Ok None
  ∧ handleListItemClick books authors getFullYear event st = JS.Ok st
  ∧ react (ListItemsClick event) st = JS.Ok st.
Proof.
  intros Hpath. pose proof (pathLoop_untagged books _ Hpath) as E.
  split; [done|]. simpl. unfold handleListItemClick. by rewrite E.
Qed.

(** *** What the handlers leave alone *)

(** Case analysis on a handled trigger. *)
Ltac handled E :=
  match type of E with
  | _ ?e _ = JS.Ok _ =>
      destruct e; simpl in E;
      try (unfold handleListItemClick in E;
           rewrite pathLoop_nearest in E; simpl in E;
           destruct (nearestTagged _ _));
      injection E as <-
  end.

Lemma react_children_frame (sel : string) e st st' :
  sel ≠ "[data-list-items]" →
  react e st = JS.Ok st' →
  Document.childrenOf sel (State.doc st') = Document.childrenOf sel (State.doc st).
Proof.
  intros Hsel E. handled E; try reflexivity.
  - unfold handleSearchFormSubmit, updateBookList, createBookList, withDoc,
      appendElements, updateShowMoreButton, Document.childrenOf; simpl.
    by rewrite !lookup_insert_ne.
  - unfold handleShowMoreButtonClick, withDoc, appendElements,
      Document.childrenOf; simpl.
    by rewrite !lookup_insert_ne.
Qed.

Lemma react_theme_frame e st st' :
  (∀ theme, e ≠ SettingsFormSubmit theme) →
  react e st = JS.Ok st' →
  storedTheme (State.doc st') = storedTheme (State.doc st).
Proof.
  intros He E. unfold storedTheme.
  handled E; try (by specialize (He theme));
    unfold handleSearchFormSubmit, updateBookList, createBookList,
      handleShowMoreButtonClick, showActiveBook, withDoc, appendElements,
      updateShowMoreButton; simpl; by read_prop.
Qed.

Lemma slice_nil {A} (a b : Z) : JS.slice a b (@nil A) = [].
Proof. unfold JS.slice. by rewrite drop_nil, take_nil. Qed.

(** X8: as long as no search is submitted, nothing is ever removed from
    the list or reordered: after any sequence of other triggers the list
    starts with the books it showed before, the matched set is the same
    and the page cursor has not decreased. *)
Theorem list_only_grows_without_search (events : list Event) st :
  Forall (λ e, isSearch e = false) events →
  ∃ st', runs events st = JS.Ok st'
    ∧ State.matches st' = State.matches st
    ∧ shown st `prefix_of` shown st'
    ∧ (State.page st ≤ State.page st')%Z.
Proof.
  intros Hev. revert st.
  induction Hev as [|e events He _ IH]; intros st; simpl.
  - exists st. by repeat split.
  - destruct (react_cases e st) as (s & E & Hcase). rewrite E; simpl.
    destruct (IH s) as (st' & E' & Hm & Hpre & Hp).
    exists st'. split; [done|].
    assert (State.matches s = State.matches st
            ∧ shown st `prefix_of` shown s
            ∧ (State.page st ≤ State.page s)%Z) as (Hm0 & Hpre0 & Hp0).
    { destruct e; try discriminate He;
        try (destruct Hcase as (-> & -> & -> & _); by repeat split).
      subst s. destruct (click_spec st) as (-> & -> & -> & _).
      split; [done|]. split; [by apply prefix_app_r | lia]. }
    split; [congruence|]. split; [by etrans | lia].
Qed.

(** X11: after a search the "no results" message is switched on exactly
    when the search returned no book, in which case the list is empty; the
    search overlay is closed and the page is scrolled to the top. *)
Theorem search_shows_message_iff_empty (f : Filters.t) st :
  let st' := handleSearchFormSubmit createBookElement books BOOKS_PER_PAGE f st in
  (Document.getProp "[data-list-message]" "classList.list__message_show"
     (State.doc st') = JS.bool_ true
   ↔ applyFilters books f = [])
  ∧ (Document.getProp "[data-list-message]" "classList.list__message_show"
       (State.doc st') = JS.bool_ false
     ↔ applyFilters books f ≠ [])
  ∧ (applyFilters books f = [] → shown st' = [])
  ∧ Document.getProp "[data-search-overlay]" "open" (State.doc st')
    = JS.bool_ false
  ∧ Document.getProp "window" "scrollTo.top" (State.doc st') = JS.num 0.
Proof.
  intros st'.
  assert (Hmsg : Document.getProp "[data-list-message]"
                   "classList.list__message_show" (State.doc st')
                 = JS.bool_ (Z.of_nat (length (applyFilters books f)) <? 1)%Z).
  { unfold st', handleSearchFormSubmit, updateBookList, createBookList,
      withDoc, appendElements, updateShowMoreButton; simpl. by read_prop. }
  rewrite Hmsg.
  split; [|split; [|split; [|split]]].
  - destruct (applyFilters books f); simpl; [done|].
    split; [|done]. intros [= H]. apply Z.ltb_lt in H. lia.
  - destruct (applyFilters books f); simpl; [by split|].
    split; [done|]. intros _. f_equal. apply Z.ltb_ge. lia.
  - intros Hnil. unfold st', handleSearchFormSubmit.
    destruct (reset_spec (applyFilters books f) st) as (_ & _ & -> & _).
    by rewrite Hnil, slice_nil.
  - unfold st', handleSearchFormSubmit, updateBookList, createBookList,
      withDoc, appendElements, updateShowMoreButton; simpl. by read_prop.
  - unfold st', handleSearchFormSubmit, updateBookList, createBookList,
      withDoc, appendElements, updateShowMoreButton; simpl. by read_prop.
Qed.

(** *** How the handlers compose *)

(** Two chains of assignments that store the same values are the same
    map. *)
Ltac same_props :=
  apply map_eq; intros ?; rewrite !lookup_insert;
  repeat case_decide; congruence.

Lemma reset_shape result st :
  reset result st
  = State.mk 1 result
      (Document.mk
         (<[("[data-search-overlay]", "open") := JS.bool_ false]>
            (<[("window", "scrollTo.top") := JS.num 0]>
               (<[("[data-list-button]", "innerText") := label]>
                  (<[("[data-list-message]", "classList.list__message_show")
                       := JS.bool_ (Z.of_nat (length result) <? 1)%Z]>
                     (Document.props (State.doc st))))))
         (<["[data-list-items]" := element <$> JS.slice 0 BOOKS_PER_PAGE result]>
            (Document.children (State.doc st)))).
Proof.
  unfold updateBookList, createBookList, withDoc, appendElements,
    updateShowMoreButton, Document.appendChild, Document.clearChildren,
    Document.setProp, Document.childrenOf; simpl.
  by rewrite lookup_insert_eq, insert_insert_eq.
Qed.

(** X12: a search starts from scratch: submitting criteria after another
    search, or after a show-more, leaves the application in the very state
    that submitting them directly would. *)
Theorem search_forgets_history (f g : Filters.t) st :
  handleSearchFormSubmit createBookElement books BOOKS_PER_PAGE f
    (handleSearchFormSubmit createBookElement books BOOKS_PER_PAGE g st)
  = handleSearchFormSubmit createBookElement books BOOKS_PER_PAGE f st
  ∧ handleSearchFormSubmit createBookElement books BOOKS_PER_PAGE f (click st)
    = handleSearchFormSubmit createBookElement books BOOKS_PER_PAGE f st.
Proof.
  unfold handleSearchFormSubmit. split.
  - rewrite !reset_shape; simpl.
    f_equal. f_equal; [same_props | apply insert_insert_eq].
  - rewrite !reset_shape.
    unfold handleShowMoreButtonClick, withDoc, appendElements,
      Document.appendChild; simpl.
    f_equal. f_equal. apply insert_insert_eq.
Qed.

(** X13: the last theme chosen wins: submitting the settings form twice
    leaves the application in the state that the second submission alone
    would. *)
Theorem settings_last_theme_wins (theme1 theme2 : JS.value) st :
  handleSettingsFormSubmit theme2 (handleSettingsFormSubmit theme1 st)
  = handleSettingsFormSubmit theme2 st.
Proof.
  unfold handleSettingsFormSubmit, setThemeColors, withDoc, Document.setProp;
    simpl.
  f_equal. f_equal. same_props.
Qed.

(** *** What holds in every state the script can reach *)

Lemma boot_theme_options (w : Window.t) (markup : Document.t Node) :
  ∃ st0 theme,
    boot w (initialState books markup) = JS.Ok st0
    ∧ storedTheme (State.doc st0)
      = (theme, JS.str (Colors.darkColor (themeColors theme)),
         JS.str (Colors.lightColor (themeColors theme)))
    ∧ Document.childrenOf "[data-search-genres]" (State.doc st0)
      = Document.childrenOf "[data-search-genres]" markup
        ++ createOptionElement genres "All Genres"
    ∧ Document.childrenOf "[data-search-authors]" (State.doc st0)
      = Document.childrenOf "[data-search-authors]" markup
        ++ createOptionElement authors "All Authors".
Proof.
  assert (Hchildren : ∀ theme,
    Document.childrenOf "[data-search-genres]"
      (updateShowMoreButton books BOOKS_PER_PAGE
         (setThemeColors theme
            (createOptionLists createOptionElement authors genres
               (State.doc (createBookList createBookElement BOOKS_PER_PAGE
                             (initialState books markup))))))
    = Document.childrenOf "[data-search-genres]" markup
      ++ createOptionElement genres "All Genres"
    ∧ Document.childrenOf "[data-search-authors]"
        (updateShowMoreButton books BOOKS_PER_PAGE
           (setThemeColors theme
              (createOptionLists createOptionElement authors genres
                 (State.doc (createBookList createBookElement BOOKS_PER_PAGE
                               (initialState books markup))))))
      = Document.childrenOf "[data-search-authors]" markup
        ++ createOptionElement authors "All Authors").
  { intros theme.
    rewrite !childrenOf_updateShowMoreButton, !childrenOf_setThemeColors.
    unfold createOptionLists, createBookList, withDoc, appendElements; simpl.
    rewrite !app_nil_r. split.
    - rewrite childrenOf_appendChild_ne, childrenOf_appendChild_eq
        by (intros [=]).
      by rewrite childrenOf_appendChild_ne by (intros [=]).
    - rewrite childrenOf_appendChild_eq.
      by rewrite !childrenOf_appendChild_ne by (intros [=]). }
  unfold initialize, checkAndSetTheme, Window.callMatchMedia.
  destruct (Window.matchMedia w) as [query|]; simpl;
    [ exists (State.mk 1 books
                (updateShowMoreButton books BOOKS_PER_PAGE
                   (setThemeColors
                      (JS.str (if Window.matches
                                    (query "(prefers-color-scheme: dark)")
                               then "night" else "day"))
                      (createOptionLists createOptionElement authors genres
                         (State.doc
                            (createBookList createBookElement BOOKS_PER_PAGE
                               (initialState books markup))))))),
        (JS.str (if Window.matches (query "(prefers-color-scheme: dark)")
                 then "night" else "day"))
    | exists (State.mk 1 books
                (updateShowMoreButton books BOOKS_PER_PAGE
                   (setThemeColors (JS.str "day")
                      (createOptionLists createOptionElement authors genres
                         (State.doc
                            (createBookList createBookElement BOOKS_PER_PAGE
                               (initialState books markup))))))),
        (JS.str "day") ];
    (split; [reflexivity|]); (split; [|apply Hchildren]);
    unfold storedTheme, updateShowMoreButton, setThemeColors; simpl;
    by read_prop.
Qed.

(** X14: the stored theme selection and the two colour variables never
    disagree: in every state reached after loading, whatever the host and
    the triggers, the colour variables hold the palette of the theme value
    stored in the settings control. *)
Theorem theme_always_consistent w markup events :
  ∃ st theme,
    loads w markup events = JS.Ok st
    ∧ storedTheme (State.doc st)
      = (theme, JS.str (Colors.darkColor (themeColors theme)),
         JS.str (Colors.lightColor (themeColors theme))).
Proof.
  destruct (loads_invariant
              (λ st, ∃ theme, storedTheme (State.doc st)
                 = (theme, JS.str (Colors.darkColor (themeColors theme)),
                    JS.str (Colors.lightColor (themeColors theme))))
              w markup events) as (st & E & theme & H).
  - intros st0 E0.
    destruct (boot_theme_options w markup) as (s & theme & E' & H & _).
    exists theme. congruence.
  - intros e s s' [theme Hs] E.
    assert ((∃ t, e = SettingsFormSubmit t) ∨ ∀ t, e ≠ SettingsFormSubmit t)
      as [[t ->] | He] by (destruct e; eauto; right; intros; discriminate).
    + simpl in E. injection E as <-. exists t.
      unfold storedTheme, handleSettingsFormSubmit, setThemeColors, withDoc;
        simpl.
      by read_prop.
    + exists theme. by rewrite (react_theme_frame e s s' He E).
  - by exists st, theme.
Qed.

(** X15: the genre and author option lists are filled once, when the
    script loads, with what [createOptionElement] returns for the genre
    and author mappings, and no trigger ever changes them. *)
Theorem option_lists_filled_once w markup events :
  ∃ st,
    loads w markup events = JS.Ok st
    ∧ Document.childrenOf "[data-search-genres]" (State.doc st)
      = Document.childrenOf "[data-search-genres]" markup
        ++ createOptionElement genres "All Genres"
    ∧ Document.childrenOf "[data-search-authors]" (State.doc st)
      = Document.childrenOf "[data-search-authors]" markup
        ++ createOptionElement authors "All Authors".
Proof.
  apply (loads_invariant
           (λ st,
              Document.childrenOf "[data-search-genres]" (State.doc st)
              = Document.childrenOf "[data-search-genres]" markup
                ++ createOptionElement genres "All Genres"
              ∧ Document.childrenOf "[data-search-authors]" (State.doc st)
                = Document.childrenOf "[data-search-authors]" markup
                  ++ createOptionElement authors "All Authors")).
  - intros st0 E0.
    destruct (boot_theme_options w markup) as (s & theme & E' & _ & Hg & Ha).
    assert (s = st0) as -> by congruence. done.
  - intros e s s' [Hg Ha] E.
    rewrite !(react_children_frame _ e s s') by (done || intros [=]). done.
Qed.

(** *** The page cursor *)

Local Abbreviation listed := (listedPrefix BOOKS_PER_PAGE createBookElement).

Hypothesis page_size_nonneg : (0 ≤ BOOKS_PER_PAGE)%Z.

Lemma reset_listed result st : listed (reset result st).
Proof.
  destruct (reset_spec result st) as (Hp & Hm & Hs & _).
  split; [lia|]. rewrite Hs, Hp, Hm, slice_from_zero by done.
  do 2 f_equal. lia.
Qed.

Lemma click_listed st : listed st → listed (click st).
Proof.
  intros [Hp Hs]. destruct (click_spec st) as (Hp' & Hm' & Hs' & _).
  split; [lia|]. rewrite Hs', Hs, Hp', Hm', <- fmap_app.
  f_equal. apply take_app_slice. nia.
Qed.

Lemma react_listed e st st' :
  listed st → react e st = JS.Ok st' → listed st'.
Proof.
  intros Hst E. destruct (react_cases e st) as (s2 & E2 & Hcase).
  assert (s2 = st') as -> by congruence.
  destruct e;
    try (destruct Hst as [Hp Hs]; destruct Hcase as (Hp' & Hm' & Hs' & _);
         split; [lia | by rewrite Hs', Hp', Hm']).
  - subst st'. apply reset_listed.
  - subst st'. by apply click_listed.
Qed.

Lemma react_cursorStep e st st' :
  react e st = JS.Ok st' → cursorStep books e st st'.
Proof.
  intros E. destruct (react_cases e st) as (s2 & E2 & Hcase).
  assert (s2 = st') as -> by congruence.
  destruct e; simpl; try (destruct Hcase as (? & ? & _); done).
  - subst st'. destruct (reset_spec (applyFilters books filters) st) as (? & ? & _).
    done.
  - subst st'. destruct (click_spec st) as (? & ? & _). done.
Qed.

Lemma listed_count st :
  listed st →
  (0 ≤ renderedCount BOOKS_PER_PAGE st ≤ Z.of_nat (length (State.matches st)))%Z
  ∧ Z.of_nat (length (shown st)) = renderedCount BOOKS_PER_PAGE st.
Proof.
  intros [Hp Hs]. unfold renderedCount.
  rewrite Hs, length_fmap, length_take. split; nia.
Qed.

Lemma clicks_listed (k : nat) result st :
  let after := Nat.iter k click (reset result st) in
  State.page after = (1 + Z.of_nat k)%Z
  ∧ State.matches after = result
  ∧ listed after.
Proof.
  induction k as [|k (Hp & Hm & Hl)]; simpl.
  - destruct (reset_spec result st) as (? & ? & _).
    split; [done|]. split; [done|]. apply reset_listed.
  - destruct (click_spec (Nat.iter k click (reset result st)))
      as (Hp' & Hm' & _).
    split; [lia|]. split; [congruence|]. by apply click_listed.
Qed.

(** C4: in every state reached from a page whose list container starts
    empty, the page cursor is an integer of at least 1, and the rendered
    count min(page * PAGE_SIZE, |matches|) lies between 0 and the number
    of matches and is the number of books in the list; every trigger is
    handled without an exception, a search replaces the matched set and
    resets the cursor to 1 in the same step, a show-more adds 1 to the
    cursor and keeps the matched set, and no other trigger changes
    either. *)
Theorem cursor_invariant w markup events :
  Document.childrenOf "[data-list-items]" markup = [] →
  ∃ st, loads w markup events = JS.Ok st
    ∧ (1 ≤ State.page st)%Z
    ∧ (0 ≤ renderedCount BOOKS_PER_PAGE st
       ≤ Z.of_nat (length (State.matches st)))%Z
    ∧ Z.of_nat (length (shown st)) = renderedCount BOOKS_PER_PAGE st
    ∧ ∀ e, ∃ st', react e st = JS.Ok st' ∧ cursorStep books e st st'.
Proof.
  intros Hempty.
  destruct (loads_invariant listed w markup events) as (st & E & Hl).
  - intros st0 E0.
    destruct (boot_spec w markup) as (s & E' & Hp & Hm & Hs & _).
    assert (s = st0) as -> by congruence.
    split; [lia|]. rewrite Hs, Hempty, Hp, Hm, slice_from_zero by done.
    simpl. do 2 f_equal. lia.
  - apply react_listed.
  - exists st. split; [done|]. split; [apply Hl|].
    destruct (listed_count st Hl) as [Hc Hn]. do 2 (split; [done|]).
    intros e. destruct (react_cases e st) as (st' & E' & _).
    exists st'. split; [done|]. by apply react_cursorStep.
Qed.

(** C2: right after a reset the list shows the matches with indices in
    [0, min(P, L)); a show-more renders the matches with indices in the
    window [page * P, (page + 1) * P), appends them to the list and adds 1
    to the page, and renders nothing, without an exception, when the
    window starts at or past L; the window of the reset and the windows of
    any number of later show-mores are pairwise disjoint, and after k
    show-mores the list shows exactly the matches with indices in
    [0, min((k + 1) * P, L)), each once and in order, which covers
    [0, k * P) when L >= k * P. *)
Theorem pagination_windows (result : list Book.t) st (k : nat) :
  let P := BOOKS_PER_PAGE in
  let L := Z.of_nat (length result) in
  let after (n : nat) := Nat.iter n click (reset result st) in
  (State.page (after 0%nat) = 1%Z
   ∧ shown (after 0%nat) = (element <$> take (Z.to_nat (Z.min P L)) result))
  ∧ (∀ s, (1 ≤ State.page s)%Z →
       let start := fst (advanceWindow P s) in
       let end_ := snd (advanceWindow P s) in
       let window := JS.slice start end_ (State.matches s) in
       State.page (click s) = (State.page s + 1)%Z
       ∧ State.matches (click s) = State.matches s
       ∧ shown (click s) = shown s ++ (element <$> window)
       ∧ (∀ i : nat,
            window !! i
            = if decide (start + Z.of_nat i < end_)%Z
              then State.matches s !! (Z.to_nat start + i)%nat else None)
       ∧ ((Z.of_nat (length (State.matches s)) ≤ start)%Z →
          window = [] ∧ shown (click s) = shown s))
  ∧ (∀ i j : nat, (i < j)%nat →
       (P ≤ fst (advanceWindow P (after i)))%Z
       ∧ (snd (advanceWindow P (after i))
          ≤ fst (advanceWindow P (after j)))%Z)
  ∧ shown (after k)
    = (element <$> take (Z.to_nat (Z.min ((Z.of_nat k + 1) * P) L)) result)
  ∧ ((Z.of_nat k * P ≤ L)%Z →
     ∀ n : nat, (Z.of_nat n < Z.of_nat k * P)%Z →
       ∃ b, result !! n = Some b ∧ shown (after k) !! n = Some (element b)).
Proof.
  intros P L after.
  assert (Hafter : ∀ n, shown (after n)
            = (element <$> take (Z.to_nat (Z.min ((Z.of_nat n + 1) * P) L))
                             result)).
  { intros n. destruct (clicks_listed n result st) as (Hp & Hm & _ & Hs).
    unfold after. rewrite Hs, Hp, Hm. subst L. rewrite take_min.
    do 2 f_equal. lia. }
  split; [|split; [|split; [|split]]].
  - split; [apply reset_spec|].
    rewrite (Hafter 0%nat). do 3 f_equal. lia.
  - intros s Hs start end_ window.
    destruct (click_spec s) as (Hp & Hm & Hsh & _).
    assert (0 ≤ start ∧ 0 ≤ end_)%Z as [? ?]
      by (unfold start, end_; simpl; nia).
    do 3 (split; [done|]). split.
    + intros i. by apply slice_lookup.
    + intros Hpast.
      assert (window = []) as Hw by by apply slice_past_end.
      split; [done|]. rewrite Hsh.
      change (shown s ++ (element <$> window) = shown s).
      by rewrite Hw, app_nil_r.
  - intros i j Hij. unfold advanceWindow, after; simpl.
    destruct (clicks_listed i result st) as (Hi & _).
    destruct (clicks_listed j result st) as (Hj & _).
    rewrite Hi, Hj. split; nia.
  - apply Hafter.
  - intros Hcover n Hn.
    destruct (lookup_lt_is_Some_2 result n) as [b Hb]; [lia|].
    exists b. split; [done|].
    rewrite Hafter, list_lookup_fmap, lookup_take_lt, Hb by lia. done.
Qed.

(** *** Running out of matches *)

(** X9: once the pages rendered so far reach the end of the matched set,
    the list shows every match, once and in order; a further show-more
    adds nothing to the list but still moves the page cursor on. *)
Theorem show_more_exhausts (result : list Book.t) st (k : nat) :
  (Z.of_nat (length result) ≤ (Z.of_nat k + 1) * BOOKS_PER_PAGE)%Z →
  let after := Nat.iter k click (reset result st) in
  shown after = (element <$> result)
  ∧ shown (click after) = shown after
  ∧ State.page (click after) = (Z.of_nat k + 2)%Z.
Proof.
  intros Hk after.
  destruct (clicks_listed k result st) as (Hp & Hm & _ & Hs).
  fold after in Hp, Hm, Hs.
  destruct (click_spec after) as (Hp' & _ & Hs' & _).
  split; [|split].
  - rewrite Hs, Hp, Hm, take_ge; [done | lia].
  - rewrite Hs', Hp, Hm, slice_past_end, app_nil_r; [done | lia | nia].
  - lia.
Qed.

Lemma slice_length {A} (a b : Z) (l : list A) :
  (0 ≤ a ≤ b)%Z →
  Z.of_nat (length (JS.slice a b l))
  = Z.min (b - a) (Z.max (Z.of_nat (length l) - a) 0).
Proof.
  intros Hab. rewrite slice_take_drop, length_take, length_drop by done. lia.
Qed.

(** X10: a show-more adds to the list as many books as remain from the
    start of its window, and never more than a page: the list grows by
    min(P, max(L - page * P, 0)). *)
Theorem show_more_adds_at_most_a_page st :
  (1 ≤ State.page st)%Z →
  Z.of_nat (length (shown (click st)))
  = (Z.of_nat (length (shown st))
     + Z.min BOOKS_PER_PAGE
         (Z.max (Z.of_nat (length (State.matches st))
                 - State.page st * BOOKS_PER_PAGE) 0))%Z.
Proof.
  intros Hp. destruct (click_spec st) as (_ & _ & -> & _).
  rewrite length_app, length_fmap, Nat2Z.inj_add, slice_length by nia.
  f_equal. f_equal. lia.
Qed.

End Transitions.

(** ** The scenario of the specification: five entries, two per page *)

Lemma pagination_windows_witness :
  (0 ≤ Demo.BOOKS_PER_PAGE)%Z
  ∧ shown (Nat.iter 2 (handleShowMoreButtonClick Demo.createBookElement
                         Demo.BOOKS_PER_PAGE)
             (updateBookList Demo.createBookElement Demo.books
                Demo.BOOKS_PER_PAGE Demo.books
                (initialState Demo.books Demo.markup)))
    = (toBookElement Demo.createBookElement <$> Demo.books).
Proof.
  split; [unfold Demo.BOOKS_PER_PAGE; lia|].
  destruct (pagination_windows Demo.createBookElement Demo.books
              Demo.BOOKS_PER_PAGE ltac:(unfold Demo.BOOKS_PER_PAGE; lia)
              Demo.books (initialState Demo.books Demo.markup) 2)
    as (_ & _ & _ & H & _).
  exact H.
Defined.

Lemma cursor_invariant_witness :
  (0 ≤ Demo.BOOKS_PER_PAGE)%Z
  ∧ Document.childrenOf "[data-list-items]" Demo.markup = []
  ∧ ∃ st,
      Demo.load Demo.noMatchMedia Demo.markup
        [ShowMoreClick; SearchFormSubmit (Filters.mk "e" "austen" "any");
         ShowMoreClick] = JS.Ok st
      ∧ (1 ≤ State.page st)%Z
      ∧ Z.of_nat (length (shown st)) = renderedCount Demo.BOOKS_PER_PAGE st.
Proof.
  split; [unfold Demo.BOOKS_PER_PAGE; lia|]. split; [reflexivity|].
  destruct (cursor_invariant Demo.createBookElement Demo.createOptionElement
              Demo.books Demo.authors Demo.genres Demo.BOOKS_PER_PAGE
              Demo.getFullYear ltac:(unfold Demo.BOOKS_PER_PAGE; lia)
              Demo.noMatchMedia Demo.markup
              [ShowMoreClick; SearchFormSubmit (Filters.mk "e" "austen" "any");
               ShowMoreClick] eq_refl)
    as (st & E & Hp & _ & Hn & _).
  exists st. by repeat split.
Defined.

Lemma handleListItemClick_untagged_noop_witness :
  let event :=
    Click.mk None
      [ Some (Click.mkTarget (Some (Click.mkDataset JS.undefined)));
        Some (Click.mkTarget None); None ] in
  let st := initialState (Node:=Demo.Node) Demo.books Demo.markup in
  (∀ node, node ∈ Click.eventPath event → Click.optPreview node = JS.undefined)
  ∧ handleListItemClick Demo.books Demo.authors Demo.getFullYear event st
    = JS.Ok st.
Proof.
  intros event st.
  assert (H : ∀ node, node ∈ Click.eventPath event
                      → Click.optPreview node = JS.undefined).
  { intros node Hin. simpl in Hin.
    repeat (apply elem_of_cons in Hin as [-> | Hin]; [reflexivity|]).
    by apply elem_of_nil in Hin. }
  split; [exact H|].
  apply (handleListItemClick_untagged_noop Demo.createBookElement Demo.books
           Demo.authors Demo.BOOKS_PER_PAGE Demo.getFullYear event st H).
Defined.

(** The list after loading and after each of three show-more clicks. *)
Example scenario_show_more :
  (Demo.shownIds <$> [ [] ; [ShowMoreClick]; [ShowMoreClick; ShowMoreClick];
                       [ShowMoreClick; ShowMoreClick; ShowMoreClick] ]
                     ≫= λ events,
                       match Demo.load Demo.noMatchMedia Demo.markup events with
                       | JS.Ok st => [st]
                       | JS.Throw _ => []
                       end)
  = [ ["b1"; "b2"]; ["b1"; "b2"; "b3"; "b4"];
      ["b1"; "b2"; "b3"; "b4"; "b5"]; ["b1"; "b2"; "b3"; "b4"; "b5"] ].
Proof. vm_compute. reflexivity. Qed.

(** A search that keeps one book still leaves "Show more (3)" on the
    button, and puts the cursor back on the first page. *)
Example scenario_search_label :
  match Demo.load Demo.darkHost Demo.markup
          [ShowMoreClick; SearchFormSubmit (Filters.mk "ubik" "any" "any")] with
  | JS.Ok st =>
      Demo.shownIds st = ["b5"]
      ∧ State.page st = 1%Z
      ∧ Document.getProp "[data-list-button]" "innerText" (State.doc st)
        = JS.str "Show more (3)"
      ∧ Document.getProp "[data-list-message]" "classList.list__message_show"
          (State.doc st) = JS.bool_ false
      ∧ Document.getProp "[data-settings-theme]" "value" (State.doc st)
        = JS.str "night"
  | JS.Throw _ => False
  end.
Proof. vm_compute. by repeat split. Qed.

(** A click on the second book opens the overlay with its details. *)
Example scenario_click_preview :
  let event :=
    Click.mk None
      [ Some (Click.mkTarget (Some (Click.mkDataset JS.undefined)));
        Some (Click.mkTarget (Some (Click.mkDataset (JS.str "b2"))));
        Some (Click.mkTarget None) ] in
  match Demo.load Demo.noMatchMedia Demo.markup [ListItemsClick event] with
  | JS.Ok st =>
      Document.getProp "[data-list-active]" "open" (State.doc st)
        = JS.bool_ true
      ∧ Document.getProp "[data-list-subtitle]" "innerText" (State.doc st)
        = JS.str "Frank Herbert (1965)"
  | JS.Throw _ => False
  end.
Proof. vm_compute. by split. Qed.

(** ** The further properties on the five-entry catalog *)


Lemma list_only_grows_without_search_witness :
  let events := [ShowMoreClick; HeaderSearchClick; SettingsFormSubmit "night";
                 ShowMoreClick] in
  let st := State.mk 1 Demo.books Demo.markup in
  Forall (λ e, isSearch e = false) events
  ∧ ∃ st',
      run Demo.createBookElement Demo.books Demo.authors Demo.BOOKS_PER_PAGE
        Demo.getFullYear events st = JS.Ok st'
      ∧ State.matches st' = Demo.books
      ∧ shown st `prefix_of` shown st'.
Proof.
  intros events st.
  assert (H : Forall (λ e, isSearch e = false) events)
    by (repeat constructor).
  split; [exact H|].
  destruct (list_only_grows_without_search Demo.createBookElement Demo.books
              Demo.authors Demo.BOOKS_PER_PAGE Demo.getFullYear events st H)
    as (st' & E & Hm & Hpre & _).
  exists st'. split; [exact E|]. split; [exact Hm | exact Hpre].
Defined.

Lemma show_more_exhausts_witness :
  let st := initialState (Node:=Demo.Node) Demo.books Demo.markup in
  let after :=
    Nat.iter 2 (handleShowMoreButtonClick Demo.createBookElement
                  Demo.BOOKS_PER_PAGE)
      (updateBookList Demo.createBookElement Demo.books Demo.BOOKS_PER_PAGE
         Demo.books st) in
  (0 ≤ Demo.BOOKS_PER_PAGE)%Z
  ∧ (Z.of_nat (length Demo.books) ≤ (Z.of_nat 2 + 1) * Demo.BOOKS_PER_PAGE)%Z
  ∧ shown (handleShowMoreButtonClick Demo.createBookElement
             Demo.BOOKS_PER_PAGE after)
    = shown after.
Proof.
  intros st after.
  assert (H0 : (0 ≤ Demo.BOOKS_PER_PAGE)%Z) by (unfold Demo.BOOKS_PER_PAGE; lia).
  assert (Hk : (Z.of_nat (length Demo.books)
                ≤ (Z.of_nat 2 + 1) * Demo.BOOKS_PER_PAGE)%Z)
    by (unfold Demo.BOOKS_PER_PAGE; simpl; lia).
  split; [exact H0|]. split; [exact Hk|].
  destruct (show_more_exhausts Demo.createBookElement Demo.books
              Demo.BOOKS_PER_PAGE H0 Demo.books st 2 Hk) as (_ & H & _).
  exact H.
Defined.

Lemma show_more_adds_at_most_a_page_witness :
  let st := State.mk 2 Demo.books Demo.markup in
  (0 ≤ Demo.BOOKS_PER_PAGE)%Z
  ∧ (1 ≤ State.page st)%Z
  ∧ Z.of_nat (length (shown (handleShowMoreButtonClick Demo.createBookElement
                             Demo.BOOKS_PER_PAGE st)))
    = (Z.of_nat (length (shown st))
       + Z.min Demo.BOOKS_PER_PAGE
           (Z.max (Z.of_nat (length (State.matches st))
                   - State.page st * Demo.BOOKS_PER_PAGE) 0))%Z.
Proof.
  intros st.
  assert (H0 : (0 ≤ Demo.BOOKS_PER_PAGE)%Z) by (unfold Demo.BOOKS_PER_PAGE; lia).
  assert (Hp : (1 ≤ State.page st)%Z) by (simpl; lia).
  split; [exact H0|]. split; [exact Hp|].
  apply (show_more_adds_at_most_a_page Demo.createBookElement
           Demo.BOOKS_PER_PAGE H0 st Hp).
Defined.
